(** * tinyio: the network device contract and its runtime-facing adapter

    A shallow embedding of [netdev.go] (the typed [Socketer] driver contract,
    the primitive-typed [socketer] contract of the runtime, and the
    [netdeverWrapper] shim that translates one into the other).

    Go integers are modelled as [Z] with the wrap-around of each conversion
    written out; the driver is an arbitrary stateful implementation, so every
    method is a computation over an abstract world that may also panic. *)

From Stdlib Require Import ZArith List String Bool Lia.
From Stdlib Require Import Strings.Byte.
Import ListNotations.

Local Open Scope Z_scope.

(** ** Machine integers *)

(** The targets the package is compiled for differ in the width of [int] and
    of [uintptr]: TinyGo keeps [int] at 32 bits on AVR, where pointers have
    16 bits. *)
Inductive Arch : Type :=
| AVR
| Arch32
| Arch64.

Definition intSize (a : Arch) : Z :=
  match a with
  | AVR => 32
  | Arch32 => 32
  | Arch64 => 64
  end.

Definition ptrSize (a : Arch) : Z :=
  match a with
  | AVR => 16
  | Arch32 => 32
  | Arch64 => 64
  end.

(** Conversion to an unsigned integer type of [w] bits. *)
Definition wrap_unsigned (w x : Z) : Z := x mod 2 ^ w.

(** Conversion to a signed integer type of [w] bits (two's complement). *)
Definition wrap_signed (w x : Z) : Z :=
  (x + 2 ^ (w - 1)) mod 2 ^ w - 2 ^ (w - 1).

Definition is_unsigned (w x : Z) : Prop := 0 <= x < 2 ^ w.
Definition is_signed (w x : Z) : Prop := - 2 ^ (w - 1) <= x < 2 ^ (w - 1).

Definition is_int (a : Arch) (x : Z) : Prop := is_signed (intSize a) x.
Definition is_uintptr (a : Arch) (x : Z) : Prop := is_unsigned (ptrSize a) x.
Definition is_uint8 (x : Z) : Prop := is_unsigned 8 x.
Definition is_uint16 (x : Z) : Prop := is_unsigned 16 x.

(** ** Socket domain model *)

(** [type AddressFamily int] and its siblings: named types over [int]. *)
Definition AddressFamily : Type := Z.
Definition SockType : Type := Z.
Definition Protocol : Type := Z.
Definition SockFlags : Type := Z.
Definition SockOpt : Type := Z.
Definition SockOptLevel : Type := Z.
Definition Sockfd : Type := Z.

(** [time.Duration] is an [int64] count of nanoseconds. *)
Definition Duration : Type := Z.

(** [[2]byte] and [[4]byte]: arrays of a fixed length. *)
Definition array2 : Type := (byte * byte)%type.
Definition array4 : Type := (byte * byte * byte * byte)%type.

(** [type SockAddr struct { port [2]byte; ip [4]byte }] *)
Record SockAddr : Type := mkSockAddr {
  port : array2;  (* Network byte order *)
  ip : array4     (* Network byte order *)
}.

(** The zero value [SockAddr{}]. *)
Definition SockAddr_zero : SockAddr :=
  {| port := (x00, x00); ip := (x00, x00, x00, x00) |}%byte.


(** A slice header: [[]byte] is a reference into memory the world owns. *)
Record Slice : Type := mkSlice {
  slice_base : Z;
  slice_len : Z;
  slice_cap : Z
}.

(** [net.Addr] is an interface of the standard library; a value of it is nil
    or one of the address types of package [net], or any other implementation
    (known by its [Network] and [String] results). *)
Inductive net_Addr : Type :=
| Addr_nil
| TCPAddr (IP : list byte) (Port : Z) (Zone : string)
| UDPAddr (IP : list byte) (Port : Z) (Zone : string)
| IPAddr (IP : list byte) (Zone : string)
| UnixAddr (Name Net : string)
| Addr_other (Network String : string).

(** [any]: nil, or a value together with its dynamic type. *)
Definition any : Type := option {T : Type & T}.

(** Conversions between the primitive types of the runtime and the named
    types of the driver contract, as the Go conversion [T(x)] computes them. *)
Definition to_AddressFamily (a : Arch) (family : Z) : AddressFamily :=
  wrap_signed (intSize a) family.
Definition to_SockType (a : Arch) (sockType : Z) : SockType :=
  wrap_signed (intSize a) sockType.
Definition to_Protocol (a : Arch) (protocol : Z) : Protocol :=
  wrap_signed (intSize a) protocol.
Definition to_SockFlags (a : Arch) (flags : Z) : SockFlags :=
  wrap_signed (intSize a) flags.
Definition to_SockOptLevel (a : Arch) (level : Z) : SockOptLevel :=
  wrap_signed (intSize a) level.
Definition to_SockOpt (a : Arch) (opt : Z) : SockOpt :=
  wrap_signed (intSize a) opt.
Definition to_Sockfd (a : Arch) (sockfd : Z) : Sockfd :=
  wrap_signed (intSize a) sockfd.
Definition to_uintptr (a : Arch) (fde : Z) : Z :=
  wrap_unsigned (ptrSize a) fde.

(** [func netAddrToSockAddr(addr net.Addr) SockAddr { return SockAddr{} }] *)
Definition netAddrToSockAddr (addr : net_Addr) : SockAddr := SockAddr_zero.

(** ** Method signatures *)

(** The types that occur in the method sets of [netdev.go]. *)
Inductive GoType : Type :=
| Tint | Tuint8 | Tuint16 | Tuintptr
| Tbytes                         (* []byte *)
| Tduration                      (* time.Duration *)
| Terror
| Tany                           (* interface{} / any *)
| TnetAddr                       (* net.Addr *)
| TAddressFamily | TSockType | TProtocol | TSockAddr
| TSockFlags | TSockOpt | TSockOptLevel | TSockfd.

Definition GoType_eqb (s t : GoType) : bool :=
  match s, t with
  | Tint, Tint | Tuint8, Tuint8 | Tuint16, Tuint16 | Tuintptr, Tuintptr
  | Tbytes, Tbytes | Tduration, Tduration | Terror, Terror | Tany, Tany
  | TnetAddr, TnetAddr | TAddressFamily, TAddressFamily
  | TSockType, TSockType | TProtocol, TProtocol | TSockAddr, TSockAddr
  | TSockFlags, TSockFlags | TSockOpt, TSockOpt
  | TSockOptLevel, TSockOptLevel | TSockfd, TSockfd => true
  | _, _ => false
  end.

Record Signature : Type := mkSignature {
  params : list (string * GoType);
  results : list GoType
}.

(** The method names of the two socket contracts. *)
Inductive Method : Type :=
| Socket | Bind | Connect | Listen | Accept
| Send | SendTo | Recv | RecvFrom | Close | SetSockOpt.

Definition Method_eqb (m n : Method) : bool :=
  match m, n with
  | Socket, Socket | Bind, Bind | Connect, Connect | Listen, Listen
  | Accept, Accept | Send, Send | SendTo, SendTo | Recv, Recv
  | RecvFrom, RecvFrom | Close, Close | SetSockOpt, SetSockOpt => true
  | _, _ => false
  end.

(** [type Socketer interface]: the typed contract a driver implements. *)
Definition Socketer_sig (m : Method) : Signature :=
  match m with
  | Socket =>
      {| params := [("family", TAddressFamily); ("sockType", TSockType);
                    ("protocol", TProtocol)];
         results := [TSockfd; Terror] |}
  | Bind =>
      {| params := [("sockfd", TSockfd); ("myaddr", TSockAddr)];
         results := [Terror] |}
  | Connect =>
      {| params := [("sockfd", TSockfd); ("servaddr", TSockAddr)];
         results := [Terror] |}
  | Listen =>
      {| params := [("sockfd", TSockfd); ("backlog", Tint)];
         results := [Terror] |}
  | Accept =>
      {| params := [("sockfd", TSockfd); ("peer", TSockAddr)];
         results := [Terror] |}
  | Send =>
      {| params := [("sockfd", TSockfd); ("buff", Tbytes);
                    ("flags", TSockFlags); ("timeout", Tduration)];
         results := [Tint; Terror] |}
  | SendTo =>
      {| params := [("sockfd", TSockfd); ("buff", Tbytes);
                    ("flags", TSockFlags); ("to", TSockAddr);
                    ("timeout", Tduration)];
         results := [Tint; Terror] |}
  | Recv =>
      {| params := [("sockfd", TSockfd); ("buff", Tbytes);
                    ("flags", TSockFlags); ("timeout", Tduration)];
         results := [Tint; Terror] |}
  | RecvFrom =>
      {| params := [("sockfd", TSockfd); ("buff", Tbytes);
                    ("flags", TSockFlags); ("from", TSockAddr);
                    ("timeout", Tduration)];
         results := [Tint; Terror] |}
  | Close =>
      {| params := [("sockfd", TSockfd)];
         results := [Terror] |}
  | SetSockOpt =>
      {| params := [("sockfd", TSockfd); ("level", TSockOptLevel);
                    ("opt", TSockOpt); ("value", Tany)];
         results := [Terror] |}
  end%string.

(** [type socketer interface]: the primitive-typed contract of the runtime.
    It has no [SendTo] and no [RecvFrom]. *)
Definition socketer_sig (m : Method) : option Signature :=
  match m with
  | Socket =>
      Some {| params := [("family", Tint); ("sockType", Tuint8);
                         ("protocol", Tint)];
              results := [Tuintptr; Terror] |}
  | Bind =>
      Some {| params := [("sockfd", Tuintptr); ("addr", TnetAddr)];
              results := [Terror] |}
  | Connect =>
      Some {| params := [("sockfd", Tuintptr); ("servaddr", TnetAddr)];
              results := [Terror] |}
  | Listen =>
      Some {| params := [("sockfd", Tuintptr); ("backlog", Tint)];
              results := [Terror] |}
  | Accept =>
      Some {| params := [("sockfd", Tuintptr); ("peer", TnetAddr)];
              results := [Tuintptr; Terror] |}
  | Send =>
      Some {| params := [("sockfd", Tuintptr); ("buf", Tbytes);
                         ("flags", Tuint16); ("timeout", Tduration)];
              results := [Tint; Terror] |}
  | Recv =>
      Some {| params := [("sockfd", Tuintptr); ("buf", Tbytes);
                         ("flags", Tuint16); ("timeout", Tduration)];
              results := [Tint; Terror] |}
  | Close =>
      Some {| params := [("sockfd", Tuintptr)];
              results := [Terror] |}
  | SetSockOpt =>
      Some {| params := [("sockfd", Tuintptr); ("level", Tint);
                         ("opt", Tint); ("optionValue", Tany)];
              results := [Terror] |}
  | SendTo | RecvFrom => None
  end%string.

(** A method takes a wait bound when one of its parameters is a
    [time.Duration]. *)
Definition takes_duration (s : Signature) : bool :=
  existsb (fun p => GoType_eqb (snd p) Tduration) (params s).

(** A method produces an address when one of its results is an address. *)
Definition returns_address (s : Signature) : bool :=
  existsb (fun t => GoType_eqb t TSockAddr || GoType_eqb t TnetAddr)
    (results s).

(** The operations the contract describes as blocking. *)
Definition blocking_operations : list Method :=
  [Accept; Send; SendTo; Recv; RecvFrom].

(** ** Computations of a driver *)

Section Driver.

(** Everything a driver can read or change: its handle table, the
    peripheral, the memory that slices refer to. *)
Variable World : Type.
(** The non-nil values of the [error] interface. *)
Variable ErrVal : Type.
(** The values a [panic] carries. *)
Variable PanicVal : Type.

Definition error : Type := option ErrVal.

Inductive Outcome (A : Type) : Type :=
| Returns (x : A) (w : World)
| Panics (p : PanicVal) (w : World).
Arguments Returns {A} x w.
Arguments Panics {A} p w.

Definition M (A : Type) : Type := World -> Outcome A.

Definition ret {A : Type} (x : A) : M A := fun w => Returns x w.

Definition bind {A B : Type} (c : M A) (k : A -> M B) : M B :=
  fun w =>
    match c w with
    | Returns x w' => k x w'
    | Panics p w' => Panics p w'
    end.

Definition outcome_map {A B : Type} (f : A -> B) (o : Outcome A)
  : Outcome B :=
  match o with
  | Returns x w => Returns (f x) w
  | Panics p w => Panics p w
  end.

Definition denote (t : GoType) : Type :=
  match t with
  | Tint | Tuint8 | Tuint16 | Tuintptr | Tduration => Z
  | Tbytes => Slice
  | Terror => error
  | Tany => any
  | TnetAddr => net_Addr
  | TAddressFamily => AddressFamily
  | TSockType => SockType
  | TProtocol => Protocol
  | TSockAddr => SockAddr
  | TSockFlags => SockFlags
  | TSockOpt => SockOpt
  | TSockOptLevel => SockOptLevel
  | TSockfd => Sockfd
  end.

Fixpoint denote_results (rs : list GoType) : Type :=
  match rs with
  | [] => unit
  | [t] => denote t
  | t :: rs' => (denote t * denote_results rs')%type
  end.

Fixpoint denote_params (ps : list (string * GoType)) (R : Type) : Type :=
  match ps with
  | [] => R
  | (_, t) :: ps' => denote t -> denote_params ps' R
  end.

(** The type of an implementation of a method of signature [s]. *)
Definition denote_sig (s : Signature) : Type :=
  denote_params (params s) (M (denote_results (results s))).

(** An implementation of [Socketer]: one function per method, of the type
    its signature gives. *)
Definition Socketer : Type := forall m : Method, denote_sig (Socketer_sig m).


(** [net.IP] and [net.HardwareAddr] are byte slices. *)
Definition net_IP : Type := list byte.
Definition net_HardwareAddr : Type := list byte.

(** [type Netdever interface] *)
Record Netdever : Type := mkNetdever {
  NetConnect : M error;
  NetDisconnect : M unit;
  GetHostByName : string -> M (net_IP * error);
  GetHardwareAddr : M (net_HardwareAddr * error);
  GetIPAddr : M (net_IP * error);
  Netdever_Socketer : Socketer
}.

(** [type netdeverWrapper struct { Netdever }] *)
Record netdeverWrapper : Type := mknetdeverWrapper {
  wrapped : Netdever
}.

End Driver.

Arguments Returns {World PanicVal A} x w.
Arguments Panics {World PanicVal A} p w.
Arguments ret {World PanicVal A} x _.
Arguments bind {World PanicVal A B} c k _.
Arguments outcome_map {World PanicVal A B} f o.
Arguments NetConnect {World ErrVal PanicVal} _ _.
Arguments NetDisconnect {World ErrVal PanicVal} _ _.
Arguments GetHostByName {World ErrVal PanicVal} _ _ _.
Arguments GetHardwareAddr {World ErrVal PanicVal} _ _.
Arguments GetIPAddr {World ErrVal PanicVal} _ _.
Arguments Netdever_Socketer {World ErrVal PanicVal} _ _.
Arguments mkNetdever {World ErrVal PanicVal}.
Arguments wrapped {World ErrVal PanicVal} _.
Arguments mknetdeverWrapper {World ErrVal PanicVal} _.

Declare Scope go_scope.
Delimit Scope go_scope with go.
Notation "x <- c ;; k" := (bind c (fun x => k))
  (at level 61, c at next level, right associativity) : go_scope.
Notation "' p <- c ;; k" := (bind c (fun x => match x with p => k end))
  (at level 61, p pattern, c at next level, right associativity) : go_scope.

(** ** The adapter *)

(** The method set the wrapper gets from its embedded field: [w.Netdever]
    seen as a [Socketer]. *)
Definition driver_of {World ErrVal PanicVal : Type}
    (w : netdeverWrapper World ErrVal PanicVal)
  : Socketer World ErrVal PanicVal :=
  Netdever_Socketer (wrapped w).

Section Wrapper.

Context {World ErrVal PanicVal : Type}.
Variable arch : Arch.
Variable w : netdeverWrapper World ErrVal PanicVal.

Local Abbreviation M := (M World PanicVal).
Local Abbreviation error := (error ErrVal).
(** [w.Netdever.m]: the promoted method [m] of the embedded driver. *)
Local Notation "'w.Netdever'" := (driver_of w).

Local Open Scope go_scope.

Definition netdeverWrapper_Socket (family sockType protocol : Z)
  : M (Z * error) :=
  '(fde, err) <- w.Netdever Socket (to_AddressFamily arch family)
                   (to_SockType arch sockType) (to_Protocol arch protocol) ;;
  ret (to_uintptr arch fde, err).

Definition netdeverWrapper_Bind (sockfd : Z) (addr : net_Addr) : M error :=
  w.Netdever Bind (to_Sockfd arch sockfd) (netAddrToSockAddr addr).

Definition netdeverWrapper_Connect (sockfd : Z) (servaddr : net_Addr)
  : M error :=
  w.Netdever Connect (to_Sockfd arch sockfd) (netAddrToSockAddr servaddr).

Definition netdeverWrapper_Listen (sockfd : Z) (backlog : Z) : M error :=
  w.Netdever Listen (to_Sockfd arch sockfd) backlog.

Definition netdeverWrapper_Accept (sockfd : Z) (peer : net_Addr)
  : M (Z * error) :=
  err <- w.Netdever Accept (to_Sockfd arch sockfd) (netAddrToSockAddr peer) ;;
  ret (0, err).

Definition netdeverWrapper_Send (sockfd : Z) (buf : Slice) (flags : Z)
    (timeout : Duration) : M (Z * error) :=
  w.Netdever Send (to_Sockfd arch sockfd) buf (to_SockFlags arch flags)
    timeout.

Definition netdeverWrapper_Recv (sockfd : Z) (buf : Slice) (flags : Z)
    (timeout : Duration) : M (Z * error) :=
  w.Netdever Recv (to_Sockfd arch sockfd) buf (to_SockFlags arch flags)
    timeout.

Definition netdeverWrapper_Close (sockfd : Z) : M error :=
  w.Netdever Close (to_Sockfd arch sockfd).

Definition netdeverWrapper_SetSockOpt (sockfd : Z) (level opt : Z)
    (optionValue : any) : M error :=
  w.Netdever SetSockOpt (to_Sockfd arch sockfd)
    (to_SockOptLevel arch level) (to_SockOpt arch opt) optionValue.


End Wrapper.

(** ** A recording driver

    A driver whose world is the log of the calls it received.  Every method
    appends its arguments to the log and answers with the descriptor, the
    byte count and the error the driver was built with. *)

Module Spy.

Inductive Call : Type :=
| CallSocket (family : AddressFamily) (sockType : SockType)
    (protocol : Protocol)
| CallBind (sockfd : Sockfd) (myaddr : SockAddr)
| CallConnect (sockfd : Sockfd) (servaddr : SockAddr)
| CallListen (sockfd : Sockfd) (backlog : Z)
| CallAccept (sockfd : Sockfd) (peer : SockAddr)
| CallSend (sockfd : Sockfd) (buff : Slice) (flags : SockFlags)
    (timeout : Duration)
| CallSendTo (sockfd : Sockfd) (buff : Slice) (flags : SockFlags)
    (to : SockAddr) (timeout : Duration)
| CallRecv (sockfd : Sockfd) (buff : Slice) (flags : SockFlags)
    (timeout : Duration)
| CallRecvFrom (sockfd : Sockfd) (buff : Slice) (flags : SockFlags)
    (from : SockAddr) (timeout : Duration)
| CallClose (sockfd : Sockfd)
| CallSetSockOpt (sockfd : Sockfd) (level : SockOptLevel) (opt : SockOpt)
    (value : any).

Definition Log : Type := list Call.

Definition record {A : Type} (c : Call) (x : A) : M Log string A :=
  fun log => Returns x (log ++ [c]).

Definition driver (fd : Sockfd) (n : Z) (err : error string)
  : Socketer Log string string :=
  fun m =>
    match m with
    | Socket => fun family sockType protocol =>
        record (CallSocket family sockType protocol) (fd, err)
    | Bind => fun sockfd myaddr => record (CallBind sockfd myaddr) err
    | Connect => fun sockfd servaddr =>
        record (CallConnect sockfd servaddr) err
    | Listen => fun sockfd backlog => record (CallListen sockfd backlog) err
    | Accept => fun sockfd peer => record (CallAccept sockfd peer) err
    | Send => fun sockfd buff flags timeout =>
        record (CallSend sockfd buff flags timeout) (n, err)
    | SendTo => fun sockfd buff flags to timeout =>
        record (CallSendTo sockfd buff flags to timeout) (n, err)
    | Recv => fun sockfd buff flags timeout =>
        record (CallRecv sockfd buff flags timeout) (n, err)
    | RecvFrom => fun sockfd buff flags from timeout =>
        record (CallRecvFrom sockfd buff flags from timeout) (n, err)
    | Close => fun sockfd => record (CallClose sockfd) err
    | SetSockOpt => fun sockfd level opt value =>
        record (CallSetSockOpt sockfd level opt value) err
    end.

Definition netdever (fd : Sockfd) (n : Z) (err : error string)
  : Netdever Log string string :=
  {| NetConnect := ret None;
     NetDisconnect := ret tt;
     GetHostByName := fun _ => ret ([], err);
     GetHardwareAddr := ret ([], err);
     GetIPAddr := ret ([], err);
     Netdever_Socketer := driver fd n err |}.

(** [netdeverWrapper{Netdever: dev}] over the recording driver. *)
Definition wrapper (fd : Sockfd) (n : Z) (err : error string)
  : netdeverWrapper Log string string :=
  mknetdeverWrapper (netdever fd n err).

End Spy.

(** ** Sample values *)

(** A socket address other than the zero value: port 8080 (0x1F90) at
    192.168.1.10, both in network byte order. *)
Definition sockaddr_8080 : SockAddr :=
  {| port := (x1f, x90); ip := (xc0, xa8, x01, x0a) |}%byte.

(** An option value whose dynamic type is [bool]. *)
Definition any_true : any := Some (existT (fun T : Type => T) bool true).

(** A driver that answers like [d], except that its [SendTo] and its
    [RecvFrom] panic with [p]. *)
Definition without_datagram {World ErrVal PanicVal : Type} (p : PanicVal)
    (d : Socketer World ErrVal PanicVal) : Socketer World ErrVal PanicVal :=
  fun m =>
    match m as m' return denote_sig World ErrVal PanicVal (Socketer_sig m')
    with
    | SendTo => fun _ _ _ _ _ st => Panics p st
    | RecvFrom => fun _ _ _ _ _ st => Panics p st
    | m' => d m'
    end.

(** The recording driver without datagram operations, wrapped. *)
Definition spy_without_datagram (fd : Sockfd) (n : Z) (err : error string)
  : netdeverWrapper Spy.Log string string :=
  mknetdeverWrapper
    {| NetConnect := ret None;
       NetDisconnect := ret tt;
       GetHostByName := fun _ => ret ([], err);
       GetHardwareAddr := ret ([], err);
       GetIPAddr := ret ([], err);
       Netdever_Socketer :=
         without_datagram "no datagrams"%string (Spy.driver fd n err) |}.

(** ** The two contracts side by side *)

(** The methods the adapter implements: those of [socketer]. *)
Definition adapter_methods : list Method :=
  [Socket; Bind; Connect; Listen; Accept; Send; Recv; Close; SetSockOpt].

(** [adapts p t]: a value of the primitive type [p] of the runtime contract
    is what the adapter converts to or from the type [t] of the driver
    contract (the conversions in the bodies of the wrapper's methods), or
    the two types are the same and the value is passed as it is. *)
Definition adapts (p t : GoType) : bool :=
  match p, t with
  | Tint, TAddressFamily | Tuint8, TSockType | Tint, TProtocol
  | Tuintptr, TSockfd | TnetAddr, TSockAddr | Tuint16, TSockFlags
  | Tint, TSockOptLevel | Tint, TSockOpt => true
  | _, _ => GoType_eqb p t
  end.

Fixpoint forallb2 {A B : Type} (f : A -> B -> bool) (l : list A)
    (l' : list B) : bool :=
  match l, l' with
  | [], [] => true
  | x :: r, y :: r' => f x y && forallb2 f r r'
  | _, _ => false
  end.

Definition param_types (s : Signature) : list GoType := map snd (params s).

(** ** Properties *)

(** *** Integer conversions *)

Lemma intSize_pos (a : Arch) : 0 < intSize a.
Proof. destruct a; reflexivity. Qed.

Lemma wrap_signed_small (w x : Z) :
  0 < w -> is_signed w x -> wrap_signed w x = x.
Proof.
  intros Hw [Hlo Hhi]. unfold wrap_signed.
  assert (Hpow : 2 ^ w = 2 * 2 ^ (w - 1)).
  { rewrite <- Z.pow_succ_r by lia. f_equal. lia. }
  rewrite Z.mod_small by lia. lia.
Qed.

Lemma wrap_unsigned_small (w x : Z) :
  is_unsigned w x -> wrap_unsigned w x = x.
Proof. intros H. unfold wrap_unsigned. apply Z.mod_small. exact H. Qed.

Lemma to_int_small (a : Arch) (x : Z) :
  is_int a x -> wrap_signed (intSize a) x = x.
Proof. intros H. apply wrap_signed_small; [apply intSize_pos | exact H]. Qed.

Lemma uint8_is_int (a : Arch) (x : Z) : is_uint8 x -> is_int a x.
Proof.
  unfold is_uint8, is_unsigned, is_int, is_signed.
  intros [Hlo Hhi]. destruct a; cbn in *; lia.
Qed.

Lemma outcome_map_bind_ret {World PanicVal A B : Type} (f : A -> B)
    (c : M World PanicVal A) (st : World) :
  bind c (fun x => ret (f x)) st = outcome_map f (c st).
Proof. unfold bind, ret. destruct (c st); reflexivity. Qed.

(** *** Address conversion *)

Lemma sockaddr_8080_not_zero : sockaddr_8080 <> SockAddr_zero.
Proof. discriminate. Qed.

(** C1, as stated, fails: whatever routine turns a [SockAddr] into a
    [net.Addr], converting port 8080 at 192.168.1.10 and then converting back
    with [netAddrToSockAddr] does not reproduce that port and address. *)
Lemma roundtrip_8080_fails :
  ~ (exists toAddr : SockAddr -> net_Addr,
        netAddrToSockAddr (toAddr sockaddr_8080) = sockaddr_8080).
Proof.
  intros [toAddr H]. unfold netAddrToSockAddr in H.
  apply sockaddr_8080_not_zero. symmetry. exact H.
Qed.

(** C1, amended: a conversion to [net.Addr] followed by [netAddrToSockAddr]
    always yields the zero [SockAddr], so it reproduces the port and the
    IPv4 address exactly when both are all-zero. *)
Theorem roundtrip_only_zero :
  forall (toAddr : SockAddr -> net_Addr) (s : SockAddr),
    netAddrToSockAddr (toAddr s) = SockAddr_zero /\
    (netAddrToSockAddr (toAddr s) = s <-> s = SockAddr_zero).
Proof.
  intros toAddr s. unfold netAddrToSockAddr. split; [reflexivity |].
  split; intros H; congruence.
Qed.

(** C2: [netAddrToSockAddr] returns the zero [SockAddr] for every
    [net.Addr], nil included, so [Bind] and [Connect] of the adapter call the
    driver with the all-zero address whatever address the caller gave; the
    recording driver logs exactly that address. *)
Theorem netAddrToSockAddr_always_zero :
  (forall addr : net_Addr,
      netAddrToSockAddr addr = SockAddr_zero /\
      port (netAddrToSockAddr addr) = (x00, x00)%byte /\
      ip (netAddrToSockAddr addr) = (x00, x00, x00, x00)%byte) /\
  (forall (World ErrVal PanicVal : Type) (arch : Arch)
          (w : netdeverWrapper World ErrVal PanicVal)
          (sockfd : Z) (addr : net_Addr) (st : World),
      netdeverWrapper_Bind arch w sockfd addr st =
        driver_of w Bind (to_Sockfd arch sockfd) SockAddr_zero st /\
      netdeverWrapper_Connect arch w sockfd addr st =
        driver_of w Connect (to_Sockfd arch sockfd) SockAddr_zero st) /\
  (forall (arch : Arch) (fd n : Z) (err : error string)
          (sockfd : Z) (addr : net_Addr) (log : Spy.Log),
      netdeverWrapper_Bind arch (Spy.wrapper fd n err) sockfd addr log =
        Returns err
          (log ++ [Spy.CallBind (to_Sockfd arch sockfd) SockAddr_zero]) /\
      netdeverWrapper_Connect arch (Spy.wrapper fd n err) sockfd addr log =
        Returns err
          (log ++ [Spy.CallConnect (to_Sockfd arch sockfd) SockAddr_zero])).
Proof.
  split; [| split].
  - intros addr. repeat split.
  - intros. split; reflexivity.
  - intros. split; reflexivity.
Qed.

(** *** Accept *)

(** C3: for every descriptor, peer and driver, [Accept] of the adapter
    returns 0 as the new descriptor together with exactly the error the
    driver's [Accept] returned (and panics when the driver does). *)
Theorem netdeverWrapper_Accept_placeholder :
  forall (World ErrVal PanicVal : Type) (arch : Arch)
         (w : netdeverWrapper World ErrVal PanicVal)
         (sockfd : Z) (peer : net_Addr) (st : World),
    netdeverWrapper_Accept arch w sockfd peer st =
      outcome_map (fun err => (0, err))
        (driver_of w Accept (to_Sockfd arch sockfd) (netAddrToSockAddr peer)
           st).
Proof.
  intros. unfold netdeverWrapper_Accept.
  apply (outcome_map_bind_ret (fun err : error ErrVal => (0, err))).
Qed.

(** *** Error forwarding *)

(** C4: for each of the nine methods of the adapter and every input, the
    error the adapter returns is the error the same call on the wrapped
    driver returned, in the world that call left; a panic of the driver is
    not recovered.  The adapter puts no error of its own in its place. *)
Theorem netdeverWrapper_forwards_errors :
  forall (World ErrVal PanicVal : Type) (arch : Arch)
         (w : netdeverWrapper World ErrVal PanicVal) (st : World),
    (forall family sockType protocol : Z,
        outcome_map snd
          (netdeverWrapper_Socket arch w family sockType protocol st) =
        outcome_map snd
          (driver_of w Socket (to_AddressFamily arch family)
             (to_SockType arch sockType) (to_Protocol arch protocol) st)) /\
    (forall (sockfd : Z) (addr : net_Addr),
        netdeverWrapper_Bind arch w sockfd addr st =
        driver_of w Bind (to_Sockfd arch sockfd) (netAddrToSockAddr addr)
          st) /\
    (forall (sockfd : Z) (servaddr : net_Addr),
        netdeverWrapper_Connect arch w sockfd servaddr st =
        driver_of w Connect (to_Sockfd arch sockfd)
          (netAddrToSockAddr servaddr) st) /\
    (forall sockfd backlog : Z,
        netdeverWrapper_Listen arch w sockfd backlog st =
        driver_of w Listen (to_Sockfd arch sockfd) backlog st) /\
    (forall (sockfd : Z) (peer : net_Addr),
        outcome_map snd (netdeverWrapper_Accept arch w sockfd peer st) =
        driver_of w Accept (to_Sockfd arch sockfd) (netAddrToSockAddr peer)
          st) /\
    (forall (sockfd : Z) (buf : Slice) (flags : Z) (timeout : Duration),
        outcome_map snd
          (netdeverWrapper_Send arch w sockfd buf flags timeout st) =
        outcome_map snd
          (driver_of w Send (to_Sockfd arch sockfd) buf
             (to_SockFlags arch flags) timeout st)) /\
    (forall (sockfd : Z) (buf : Slice) (flags : Z) (timeout : Duration),
        outcome_map snd
          (netdeverWrapper_Recv arch w sockfd buf flags timeout st) =
        outcome_map snd
          (driver_of w Recv (to_Sockfd arch sockfd) buf
             (to_SockFlags arch flags) timeout st)) /\
    (forall sockfd : Z,
        netdeverWrapper_Close arch w sockfd st =
        driver_of w Close (to_Sockfd arch sockfd) st) /\
    (forall (sockfd level opt : Z) (optionValue : any),
        netdeverWrapper_SetSockOpt arch w sockfd level opt optionValue st =
        driver_of w SetSockOpt (to_Sockfd arch sockfd)
          (to_SockOptLevel arch level) (to_SockOpt arch opt) optionValue st).
Proof.
  intros World ErrVal PanicVal arch w st.
  repeat match goal with |- _ /\ _ => split end; intros;
    try reflexivity.
  - unfold netdeverWrapper_Socket, bind, ret.
    destruct (driver_of w Socket _ _ _ st) as [[fde err] st' | p st'];
      reflexivity.
  - unfold netdeverWrapper_Accept, bind, ret.
    destruct (driver_of w Accept _ _ st) as [err st' | p st']; reflexivity.
Qed.

(** *** Socket *)

(** C5: for every family code and protocol code that is an [int] and every
    socket-type byte, whether or not the code is one of a known enumeration,
    the conversions to [AddressFamily], [SockType] and [Protocol] keep the
    number, and [Socket] of the adapter is the driver's [Socket] on those
    numbers: the adapter rejects no code and only converts the descriptor
    the driver returned. *)
Theorem netdeverWrapper_Socket_passes_codes :
  forall (World ErrVal PanicVal : Type) (arch : Arch)
         (w : netdeverWrapper World ErrVal PanicVal)
         (family sockType protocol : Z) (st : World),
    is_int arch family -> is_uint8 sockType -> is_int arch protocol ->
    to_AddressFamily arch family = family /\
    to_SockType arch sockType = sockType /\
    to_Protocol arch protocol = protocol /\
    netdeverWrapper_Socket arch w family sockType protocol st =
      outcome_map (fun r => (to_uintptr arch (fst r), snd r))
        (driver_of w Socket family sockType protocol st).
Proof.
  intros World ErrVal PanicVal arch w family sockType protocol st Hf Ht Hp.
  assert (Ef : to_AddressFamily arch family = family)
    by (apply to_int_small; exact Hf).
  assert (Et : to_SockType arch sockType = sockType)
    by (apply to_int_small, uint8_is_int; exact Ht).
  assert (Ep : to_Protocol arch protocol = protocol)
    by (apply to_int_small; exact Hp).
  repeat split; try assumption.
  unfold netdeverWrapper_Socket, bind, ret. rewrite Ef, Et, Ep.
  destruct (driver_of w Socket family sockType protocol st)
    as [[fde err] st' | p st']; reflexivity.
Qed.

(** The recording driver, asked through the adapter on a 32-bit target for a
    socket of family 12345, type 255 and protocol -7 (none of them a known
    code), logs those three numbers. *)
Lemma netdeverWrapper_Socket_passes_codes_witness :
  is_int Arch32 12345 /\ is_uint8 255 /\ is_int Arch32 (-7) /\
  to_AddressFamily Arch32 12345 = 12345 /\
  to_SockType Arch32 255 = 255 /\
  to_Protocol Arch32 (-7) = -7 /\
  netdeverWrapper_Socket Arch32 (Spy.wrapper 5 0 None) 12345 255 (-7) [] =
    outcome_map (fun r => (to_uintptr Arch32 (fst r), snd r))
      (driver_of (Spy.wrapper 5 0 None) Socket 12345 255 (-7) []).
Proof.
  assert (Hf : is_int Arch32 12345) by (unfold is_int, is_signed; cbn; lia).
  assert (Ht : is_uint8 255) by (unfold is_uint8, is_unsigned; cbn; lia).
  assert (Hp : is_int Arch32 (-7)) by (unfold is_int, is_signed; cbn; lia).
  split; [exact Hf |]. split; [exact Ht |]. split; [exact Hp |].
  exact (netdeverWrapper_Socket_passes_codes Spy.Log string string Arch32
           (Spy.wrapper 5 0 None) 12345 255 (-7) [] Hf Ht Hp).
Defined.

Example Socket_log_unknown_codes :
  netdeverWrapper_Socket Arch32 (Spy.wrapper 5 0 None) 12345 255 (-7) [] =
    Returns (5, None) [Spy.CallSocket 12345 255 (-7)].
Proof. reflexivity. Qed.

(** *** SetSockOpt *)

(** C6: for every option value, of whatever dynamic type, and every level
    and option code that is an [int], [SetSockOpt] of the adapter is the
    driver's [SetSockOpt] on the same value and on the level and option
    codes with their numbers kept. *)
Theorem netdeverWrapper_SetSockOpt_passes_value :
  forall (World ErrVal PanicVal : Type) (arch : Arch)
         (w : netdeverWrapper World ErrVal PanicVal)
         (sockfd level opt : Z) (optionValue : any) (st : World),
    is_int arch level -> is_int arch opt ->
    to_SockOptLevel arch level = level /\
    to_SockOpt arch opt = opt /\
    netdeverWrapper_SetSockOpt arch w sockfd level opt optionValue st =
      driver_of w SetSockOpt (to_Sockfd arch sockfd) level opt optionValue
        st.
Proof.
  intros World ErrVal PanicVal arch w sockfd level opt optionValue st Hl Ho.
  assert (El : to_SockOptLevel arch level = level)
    by (apply to_int_small; exact Hl).
  assert (Eo : to_SockOpt arch opt = opt)
    by (apply to_int_small; exact Ho).
  repeat split; try assumption.
  unfold netdeverWrapper_SetSockOpt. rewrite El, Eo. reflexivity.
Qed.

Lemma netdeverWrapper_SetSockOpt_passes_value_witness :
  is_int Arch64 1 /\ is_int Arch64 9 /\
  to_SockOptLevel Arch64 1 = 1 /\
  to_SockOpt Arch64 9 = 9 /\
  netdeverWrapper_SetSockOpt Arch64 (Spy.wrapper 5 0 None) 5 1 9 any_true
    [] =
    driver_of (Spy.wrapper 5 0 None) SetSockOpt (to_Sockfd Arch64 5) 1 9
      any_true [].
Proof.
  assert (Hl : is_int Arch64 1) by (unfold is_int, is_signed; cbn; lia).
  assert (Ho : is_int Arch64 9) by (unfold is_int, is_signed; cbn; lia).
  split; [exact Hl |]. split; [exact Ho |].
  exact (netdeverWrapper_SetSockOpt_passes_value Spy.Log string string Arch64
           (Spy.wrapper 5 0 None) 5 1 9 any_true [] Hl Ho).
Defined.

Example SetSockOpt_log_value :
  netdeverWrapper_SetSockOpt Arch64 (Spy.wrapper 5 0 None) 5 1 9 any_true
    [] =
    Returns None [Spy.CallSetSockOpt 5 1 9 any_true].
Proof. reflexivity. Qed.

(** *** Wait bounds *)

(** C7, as stated, fails: [Accept] is one of the blocking operations, yet
    neither the driver contract nor the runtime contract gives it a
    [time.Duration] parameter, and no result of it is an address. *)
Lemma Accept_takes_no_duration :
  In Accept blocking_operations /\
  takes_duration (Socketer_sig Accept) = false /\
  returns_address (Socketer_sig Accept) = false /\
  option_map takes_duration (socketer_sig Accept) = Some false.
Proof. repeat split. left. reflexivity. Qed.

(** C7, amended: the methods of [Socketer] that take an explicit wait
    duration are exactly [Send], [SendTo], [Recv] and [RecvFrom] (in the
    runtime contract: [Send] and [Recv]).  [Accept] takes the descriptor and
    a peer [SockAddr] by value and returns an error only; no method of
    either contract returns an address. *)
Theorem wait_bound_parameters :
  forall m : Method,
    takes_duration (Socketer_sig m) =
      existsb (Method_eqb m) [Send; SendTo; Recv; RecvFrom] /\
    option_map takes_duration (socketer_sig m) =
      option_map (fun _ => existsb (Method_eqb m) [Send; Recv])
        (socketer_sig m) /\
    returns_address (Socketer_sig m) = false /\
    option_map returns_address (socketer_sig m) =
      option_map (fun _ => false) (socketer_sig m) /\
    map snd (params (Socketer_sig Accept)) = [TSockfd; TSockAddr] /\
    results (Socketer_sig Accept) = [Terror] /\
    (forall World ErrVal PanicVal : Type,
        denote_sig World ErrVal PanicVal (Socketer_sig Accept) =
          (Sockfd -> SockAddr -> M World PanicVal (error ErrVal))).
Proof.
  intros m. repeat split; destruct m; reflexivity.
Qed.

(** *** Descriptors and addresses *)

(** A descriptor the driver returns that is not negative and fits both
    [int] and [uintptr] reaches the runtime with its number kept, and
    converts back to the driver's descriptor on the next call. *)
Theorem Sockfd_uintptr_roundtrip :
  forall (arch : Arch) (fde : Z),
    is_int arch fde -> is_uintptr arch fde ->
    to_uintptr arch fde = fde /\
    to_Sockfd arch (to_uintptr arch fde) = fde.
Proof.
  intros arch fde Hi Hu.
  assert (E : to_uintptr arch fde = fde)
    by (apply wrap_unsigned_small; exact Hu).
  split; [exact E |]. rewrite E. apply to_int_small. exact Hi.
Qed.

Lemma Sockfd_uintptr_roundtrip_witness :
  is_int AVR 5 /\ is_uintptr AVR 5 /\
  to_uintptr AVR 5 = 5 /\ to_Sockfd AVR (to_uintptr AVR 5) = 5.
Proof.
  assert (Hi : is_int AVR 5) by (unfold is_int, is_signed; cbn; lia).
  assert (Hu : is_uintptr AVR 5) by (unfold is_uintptr, is_unsigned; cbn; lia).
  split; [exact Hi |]. split; [exact Hu |].
  exact (Sockfd_uintptr_roundtrip AVR 5 Hi Hu).
Defined.

(** On AVR, where [uintptr] has 16 bits and [int] has 32, a descriptor of
    65541 reaches the runtime as 5. *)
Example Socket_truncates_descriptor_on_AVR :
  netdeverWrapper_Socket AVR (Spy.wrapper 65541 0 None) 2 1 0 [] =
    Returns (5, None) [Spy.CallSocket 2 1 0].
Proof. reflexivity. Qed.


(** *** Descriptor conversions on every target *)

Lemma pow2_split (w : Z) : 0 < w -> 2 ^ w = 2 * 2 ^ (w - 1).
Proof.
  intros Hw. rewrite <- Z.pow_succ_r by lia. f_equal. lia.
Qed.

Lemma wrap_signed_range (w x : Z) : 0 < w -> is_signed w (wrap_signed w x).
Proof.
  intros Hw. unfold is_signed, wrap_signed.
  assert (Hp : 0 < 2 ^ (w - 1)) by (apply Z.pow_pos_nonneg; lia).
  pose proof (pow2_split w Hw) as Hs.
  pose proof (Z.mod_pos_bound (x + 2 ^ (w - 1)) (2 ^ w)) as Hb. lia.
Qed.

Lemma wrap_unsigned_range (w x : Z) :
  0 < w -> is_unsigned w (wrap_unsigned w x).
Proof.
  intros Hw. unfold is_unsigned, wrap_unsigned.
  apply Z.mod_pos_bound. apply Z.pow_pos_nonneg; lia.
Qed.

Lemma wrap_unsigned_signed_cancel (w x : Z) :
  wrap_unsigned w (wrap_signed w x) = wrap_unsigned w x.
Proof.
  unfold wrap_unsigned, wrap_signed.
  rewrite Zminus_mod_idemp_l. f_equal. lia.
Qed.

Lemma wrap_signed_unsigned_cancel (w x : Z) :
  wrap_signed w (wrap_unsigned w x) = wrap_signed w x.
Proof.
  unfold wrap_unsigned, wrap_signed.
  rewrite Zplus_mod_idemp_l. reflexivity.
Qed.

Lemma ptrSize_pos (a : Arch) : 0 < ptrSize a.
Proof. destruct a; reflexivity. Qed.

Lemma uintptr_back (arch : Arch) (x : Z) :
  is_uintptr arch x -> to_uintptr arch (to_Sockfd arch x) = x.
Proof.
  intros Hx. unfold to_uintptr, to_Sockfd. destruct arch.
  - rewrite wrap_signed_small.
    + apply wrap_unsigned_small. exact Hx.
    + reflexivity.
    + unfold is_uintptr, is_unsigned, is_signed in *. cbn in *. lia.
  - change (ptrSize Arch32) with (intSize Arch32).
    rewrite wrap_unsigned_signed_cancel. apply wrap_unsigned_small. exact Hx.
  - change (ptrSize Arch64) with (intSize Arch64).
    rewrite wrap_unsigned_signed_cancel. apply wrap_unsigned_small. exact Hx.
Qed.

(** Every descriptor the runtime passes in reaches the driver as a value of
    [int], and converting that value to [uintptr] again gives the runtime's
    descriptor back, on every target. *)
Theorem uintptr_Sockfd_roundtrip :
  forall (arch : Arch) (sockfd : Z),
    is_uintptr arch sockfd ->
    is_int arch (to_Sockfd arch sockfd) /\
    to_uintptr arch (to_Sockfd arch sockfd) = sockfd.
Proof.
  intros arch sockfd H. split.
  - apply wrap_signed_range, intSize_pos.
  - apply uintptr_back. exact H.
Qed.

Lemma uintptr_Sockfd_roundtrip_witness :
  is_uintptr Arch32 4294967295 /\
  is_int Arch32 (to_Sockfd Arch32 4294967295) /\
  to_uintptr Arch32 (to_Sockfd Arch32 4294967295) = 4294967295.
Proof.
  assert (H : is_uintptr Arch32 4294967295)
    by (unfold is_uintptr, is_unsigned; cbn; lia).
  split; [exact H |].
  exact (uintptr_Sockfd_roundtrip Arch32 4294967295 H).
Defined.

(** Two different descriptors of the runtime never reach the driver as the
    same [Sockfd]. *)
Theorem to_Sockfd_injective :
  forall (arch : Arch) (x y : Z),
    is_uintptr arch x -> is_uintptr arch y ->
    to_Sockfd arch x = to_Sockfd arch y -> x = y.
Proof.
  intros arch x y Hx Hy E.
  rewrite <- (uintptr_back arch x Hx), <- (uintptr_back arch y Hy), E.
  reflexivity.
Qed.

Lemma to_Sockfd_injective_witness :
  is_uintptr Arch64 7 /\ is_uintptr Arch64 7 /\
  to_Sockfd Arch64 7 = to_Sockfd Arch64 7 /\ 7 = 7.
Proof.
  assert (H : is_uintptr Arch64 7)
    by (unfold is_uintptr, is_unsigned; cbn; lia).
  split; [exact H |]. split; [exact H |]. split; [reflexivity |].
  exact (to_Sockfd_injective Arch64 7 7 H H eq_refl).
Defined.

Lemma Sockfd_back_same_width (arch : Arch) (fde : Z) :
  ptrSize arch = intSize arch -> is_int arch fde ->
  to_Sockfd arch (to_uintptr arch fde) = fde.
Proof.
  intros Hw Hi. unfold to_Sockfd, to_uintptr. rewrite Hw.
  rewrite wrap_signed_unsigned_cancel. apply to_int_small. exact Hi.
Qed.

(** Where [uintptr] is as wide as [int], every descriptor the driver
    returns, a negative one included, converts back to itself after its
    conversion to [uintptr]. *)
Theorem Sockfd_roundtrip_same_width :
  forall (arch : Arch) (fde : Z),
    ptrSize arch = intSize arch -> is_int arch fde ->
    is_uintptr arch (to_uintptr arch fde) /\
    to_Sockfd arch (to_uintptr arch fde) = fde.
Proof.
  intros arch fde Hw Hi. split.
  - apply wrap_unsigned_range, ptrSize_pos.
  - apply Sockfd_back_same_width; assumption.
Qed.

Lemma Sockfd_roundtrip_same_width_witness :
  ptrSize Arch64 = intSize Arch64 /\ is_int Arch64 (-1) /\
  is_uintptr Arch64 (to_uintptr Arch64 (-1)) /\
  to_Sockfd Arch64 (to_uintptr Arch64 (-1)) = -1.
Proof.
  assert (Hi : is_int Arch64 (-1)) by (unfold is_int, is_signed; cbn; lia).
  split; [reflexivity |]. split; [exact Hi |].
  exact (Sockfd_roundtrip_same_width Arch64 (-1) eq_refl Hi).
Defined.

(** On AVR a descriptor the driver returns converts back to itself exactly
    when it is not negative and below 65536; any other descriptor reaches
    the runtime as a different handle. *)
Theorem Sockfd_roundtrip_AVR :
  forall fde : Z,
    is_int AVR fde ->
    (to_Sockfd AVR (to_uintptr AVR fde) = fde <-> 0 <= fde < 65536).
Proof.
  intros fde Hi.
  pose proof (wrap_unsigned_range 16 fde eq_refl) as Hr.
  unfold is_unsigned in Hr. change (2 ^ 16) with 65536 in Hr.
  assert (E : to_Sockfd AVR (to_uintptr AVR fde) = wrap_unsigned 16 fde).
  { unfold to_Sockfd, to_uintptr. cbn [intSize ptrSize].
    apply wrap_signed_small; [reflexivity |].
    unfold is_signed. cbn. lia. }
  rewrite E. split.
  - intros H. rewrite <- H. exact Hr.
  - intros H. apply wrap_unsigned_small. exact H.
Qed.

Lemma Sockfd_roundtrip_AVR_witness :
  is_int AVR 65541 /\
  (to_Sockfd AVR (to_uintptr AVR 65541) = 65541 <-> 0 <= 65541 < 65536).
Proof.
  assert (Hi : is_int AVR 65541) by (unfold is_int, is_signed; cbn; lia).
  split; [exact Hi |].
  exact (Sockfd_roundtrip_AVR 65541 Hi).
Defined.

(** *** Send and Recv *)

Lemma uint16_is_int (a : Arch) (x : Z) : is_uint16 x -> is_int a x.
Proof.
  unfold is_uint16, is_unsigned, is_int, is_signed.
  intros [Hlo Hhi]. destruct a; cbn in *; lia.
Qed.

(** For every [uint16] of flags, the top bit set or not, [Send] and [Recv]
    of the adapter are the driver's [Send] and [Recv] on the same flag
    number, the same buffer and the same wait bound, and they return the
    driver's byte count and error as they are. *)
Theorem netdeverWrapper_Send_Recv_pass_through :
  forall (World ErrVal PanicVal : Type) (arch : Arch)
         (w : netdeverWrapper World ErrVal PanicVal)
         (sockfd : Z) (buf : Slice) (flags : Z) (timeout : Duration)
         (st : World),
    is_uint16 flags ->
    to_SockFlags arch flags = flags /\
    netdeverWrapper_Send arch w sockfd buf flags timeout st =
      driver_of w Send (to_Sockfd arch sockfd) buf flags timeout st /\
    netdeverWrapper_Recv arch w sockfd buf flags timeout st =
      driver_of w Recv (to_Sockfd arch sockfd) buf flags timeout st.
Proof.
  intros World ErrVal PanicVal arch w sockfd buf flags timeout st Hf.
  assert (E : to_SockFlags arch flags = flags)
    by (apply to_int_small, uint16_is_int; exact Hf).
  split; [exact E |].
  unfold netdeverWrapper_Send, netdeverWrapper_Recv. rewrite E.
  split; reflexivity.
Qed.

Lemma netdeverWrapper_Send_Recv_pass_through_witness :
  is_uint16 65535 /\
  to_SockFlags AVR 65535 = 65535 /\
  netdeverWrapper_Send AVR (Spy.wrapper 5 3 None) 5 (mkSlice 64 3 8) 65535
    1000 [] =
    driver_of (Spy.wrapper 5 3 None) Send (to_Sockfd AVR 5) (mkSlice 64 3 8)
      65535 1000 [] /\
  netdeverWrapper_Recv AVR (Spy.wrapper 5 3 None) 5 (mkSlice 64 3 8) 65535
    1000 [] =
    driver_of (Spy.wrapper 5 3 None) Recv (to_Sockfd AVR 5) (mkSlice 64 3 8)
      65535 1000 [].
Proof.
  assert (Hf : is_uint16 65535) by (unfold is_uint16, is_unsigned; cbn; lia).
  split; [exact Hf |].
  exact (netdeverWrapper_Send_Recv_pass_through Spy.Log string string AVR
           (Spy.wrapper 5 3 None) 5 (mkSlice 64 3 8) 65535 1000 [] Hf).
Defined.

Example Send_log_all_flags :
  netdeverWrapper_Send AVR (Spy.wrapper 5 3 None) 5 (mkSlice 64 3 8) 65535
    1000 [] =
    Returns (3, None) [Spy.CallSend 5 (mkSlice 64 3 8) 65535 1000].
Proof. reflexivity. Qed.

(** *** Composition *)

(** Where [uintptr] is as wide as [int]: when the driver's [Socket] returns
    a descriptor and an error, the adapter's [Socket] returns that error
    with a descriptor which, handed to the adapter's [Close], [Listen],
    [Bind] or [Accept] afterwards, makes the driver's method run on the
    descriptor the driver itself had returned. *)
Theorem Socket_then_descriptor_calls :
  forall (World ErrVal PanicVal : Type) (arch : Arch)
         (w : netdeverWrapper World ErrVal PanicVal)
         (family sockType protocol : Z) (st st' : World)
         (fde : Sockfd) (err : error ErrVal),
    ptrSize arch = intSize arch ->
    is_int arch fde ->
    driver_of w Socket (to_AddressFamily arch family)
      (to_SockType arch sockType) (to_Protocol arch protocol) st =
      Returns (fde, err) st' ->
    exists fd : Z,
      netdeverWrapper_Socket arch w family sockType protocol st =
        Returns (fd, err) st' /\
      is_uintptr arch fd /\
      (forall st2, netdeverWrapper_Close arch w fd st2 =
                     driver_of w Close fde st2) /\
      (forall backlog st2, netdeverWrapper_Listen arch w fd backlog st2 =
                             driver_of w Listen fde backlog st2) /\
      (forall addr st2, netdeverWrapper_Bind arch w fd addr st2 =
                          driver_of w Bind fde SockAddr_zero st2) /\
      (forall peer st2, netdeverWrapper_Accept arch w fd peer st2 =
                          outcome_map (fun e => (0, e))
                            (driver_of w Accept fde SockAddr_zero st2)).
Proof.
  intros World ErrVal PanicVal arch w family sockType protocol st st' fde err
    Hw Hi Hs.
  exists (to_uintptr arch fde).
  pose proof (Sockfd_back_same_width arch fde Hw Hi) as E.
  split.
  { unfold netdeverWrapper_Socket, bind, ret. rewrite Hs. reflexivity. }
  split.
  { apply wrap_unsigned_range, ptrSize_pos. }
  split; [| split; [| split]]; intros.
  - unfold netdeverWrapper_Close. rewrite E. reflexivity.
  - unfold netdeverWrapper_Listen. rewrite E. reflexivity.
  - unfold netdeverWrapper_Bind, netAddrToSockAddr. rewrite E. reflexivity.
  - unfold netdeverWrapper_Accept, netAddrToSockAddr. rewrite E.
    apply (outcome_map_bind_ret (fun e : error ErrVal => (0, e))).
Qed.

Lemma Socket_then_descriptor_calls_witness :
  ptrSize Arch64 = intSize Arch64 /\
  is_int Arch64 (-1) /\
  driver_of (Spy.wrapper (-1) 0 None) Socket (to_AddressFamily Arch64 2)
    (to_SockType Arch64 1) (to_Protocol Arch64 0) [] =
    Returns (-1, None) [Spy.CallSocket 2 1 0] /\
  exists fd : Z,
    netdeverWrapper_Socket Arch64 (Spy.wrapper (-1) 0 None) 2 1 0 [] =
      Returns (fd, None) [Spy.CallSocket 2 1 0] /\
    is_uintptr Arch64 fd /\
    (forall st2, netdeverWrapper_Close Arch64 (Spy.wrapper (-1) 0 None) fd
                   st2 =
                 driver_of (Spy.wrapper (-1) 0 None) Close (-1) st2) /\
    (forall backlog st2,
        netdeverWrapper_Listen Arch64 (Spy.wrapper (-1) 0 None) fd backlog
          st2 =
        driver_of (Spy.wrapper (-1) 0 None) Listen (-1) backlog st2) /\
    (forall addr st2,
        netdeverWrapper_Bind Arch64 (Spy.wrapper (-1) 0 None) fd addr st2 =
        driver_of (Spy.wrapper (-1) 0 None) Bind (-1) SockAddr_zero st2) /\
    (forall peer st2,
        netdeverWrapper_Accept Arch64 (Spy.wrapper (-1) 0 None) fd peer
          st2 =
        outcome_map (fun e => (0, e))
          (driver_of (Spy.wrapper (-1) 0 None) Accept (-1) SockAddr_zero
             st2)).
Proof.
  assert (Hi : is_int Arch64 (-1)) by (unfold is_int, is_signed; cbn; lia).
  split; [reflexivity |]. split; [exact Hi |]. split; [reflexivity |].
  exact (Socket_then_descriptor_calls Spy.Log string string Arch64
           (Spy.wrapper (-1) 0 None) 2 1 0 [] [Spy.CallSocket 2 1 0] (-1)
           None eq_refl Hi eq_refl).
Defined.

(** *** What the adapter does not use *)




(** The two drivers of the witness do differ on [SendTo]. *)
Example spy_without_datagram_differs :
  driver_of (Spy.wrapper 5 0 None) SendTo 5 (mkSlice 0 0 0) 0 SockAddr_zero
    0 [] <>
  driver_of (spy_without_datagram 5 0 None) SendTo 5 (mkSlice 0 0 0) 0
    SockAddr_zero 0 [].
Proof. discriminate. Qed.

(** *** The two contracts side by side *)

(** The runtime contract has every method of the driver contract but
    [SendTo] and [RecvFrom].  Each method it has takes as many parameters as
    the driver's, each of the primitive type the adapter converts to the
    driver's type (or of the same type); the results correspond in the same
    way, except those of [Accept], which returns a [uintptr] in front of the
    driver's single error. *)
Theorem contracts_correspond :
  forall m : Method,
    match socketer_sig m with
    | Some s =>
        existsb (Method_eqb m) adapter_methods = true /\
        forallb2 adapts (param_types s) (param_types (Socketer_sig m)) =
          true /\
        (if Method_eqb m Accept
         then results s = Tuintptr :: results (Socketer_sig m)
         else forallb2 adapts (results s) (results (Socketer_sig m)) = true)
    | None =>
        existsb (Method_eqb m) adapter_methods = false /\
        existsb (Method_eqb m) [SendTo; RecvFrom] = true
    end.
Proof.
  intros m. destruct m; cbn; repeat split.
Qed.
